(** * A payment-gateway client (util.py): the four operations and their traffic

    The module is a thin client: every operation builds a request, hands it
    to [requests.request], and returns [response.json()].  The embedding
    below keeps that shape.  Python values are an inductive type, the
    exceptions the code can let through are an enumeration, and the effects
    (calls handed to the transport, lines written by [print]) are threaded
    through a small state-and-exception monad.

    What the Python libraries do is not part of the module, so it enters as
    section variables: the transport's answer to a request, the JSON decoder
    behind [response.json()], the text produced by [json.dumps], and
    [repr]. *)

From Stdlib Require Import String Ascii ZArith List Bool DecimalString.
Import ListNotations.
Open Scope string_scope.
Open Scope list_scope.
Open Scope Z_scope.

Set Implicit Arguments.
Set Warnings "-register-all".

(** ** Python values *)

(** The values that flow through the module: what [response.json()] can
    produce, plus [PObject] for an argument of any other builtin class (a
    set, bytes, a Decimal), which [json.dumps] refuses.  A float is carried
    as its 64-bit pattern; a dict keeps its items in insertion order. *)
Inductive pyval : Type :=
| PNone
| PBool (b : bool)
| PInt (z : Z)
| PFloat (bits : Z)
| PStr (s : string)
| PList (items : list pyval)
| PDict (items : list (string * pyval))
| PObject (cls : string).

(** The exceptions that can leave an operation. *)
Inductive exn : Type :=
| RequestException (detail : string)
| JSONDecodeError
| KeyError (key : string)
| TypeError.

Inductive result (A : Type) : Type :=
| Ok (a : A)
| Raised (e : exn).
Arguments Ok {A} a.
Arguments Raised {A} e.

(** ** Requests and responses *)

(** The [data=] argument: a str body, or a dict of form fields. *)
Inductive payload : Type :=
| DataStr (s : string)
| DataDict (fields : list (string * string)).

(** The arguments of one [requests.request] call. *)
Record request : Type := mkRequest {
  method : string;
  url : string;
  headers : list (string * string);
  data : payload;
  timeout : Z
}.

Record response : Type := mkResponse {
  status_code : Z;
  text : string
}.

(** What a [requests.request] call comes back with: a response with some
    status, or an exception of the transport. *)
Inductive outcome : Type :=
| Reply (r : response)
| Fails (detail : string).

(** The provider and the network between: the answer to a request may
    depend on the requests sent before it. *)
Definition network : Type := list request -> request -> outcome.

(** ** The world and the monad *)

Record world : Type := mkWorld {
  sent : list request;
  stdout : list string
}.

Definition M (A : Type) : Type := world -> result A * world.

Definition ret {A : Type} (a : A) : M A := fun w => (Ok a, w).

Definition raise {A : Type} (e : exn) : M A := fun w => (Raised e, w).

Definition bind {A B : Type} (m : M A) (k : A -> M B) : M B :=
  fun w =>
    match m w with
    | (Ok a, w') => k a w'
    | (Raised e, w') => (Raised e, w')
    end.

Notation "x <- m ;; k" := (bind m (fun x => k))
  (at level 61, m at next level, right associativity).

Definition lift {A : Type} (r : result A) : M A := fun w => (r, w).

(** ** Builtins used by the module *)

Definition key_eqb (k : string) (kv : string * pyval) : bool :=
  String.eqb k (fst kv).

(** [d[key]] on a dict. *)
Definition dict_get (key : string) (items : list (string * pyval))
  : option pyval :=
  option_map snd (find (key_eqb key) items).

(** [v[key]] with a str key: a dict answers or raises KeyError; every
    other value raises TypeError. *)
Definition getitem (v : pyval) (key : string) : result pyval :=
  match v with
  | PDict items =>
      match dict_get key items with
      | Some x => Ok x
      | None => Raised (KeyError key)
      end
  | _ => Raised TypeError
  end.

(** Whether [json.dumps] accepts the value. *)
Fixpoint serializable (v : pyval) : bool :=
  match v with
  | PObject _ => false
  | PList items => forallb serializable items
  | PDict items => forallb (fun kv => serializable (snd kv)) items
  | _ => true
  end.

(** Whether a decoded value is a dict with the given key. *)
Definition has_field (key : string) (v : pyval) : bool :=
  match v with
  | PDict items => existsb (key_eqb key) items
  | _ => false
  end.

(** ** Module constants *)

Definition app_id : string := "17eabc50-c552-11f0-9c11-deadd43720af".

Definition app_secret : string :=
  "9491032d457e34ef97a330564d321fd6da39a3ee5e6b4b0d3255bfef95601890afd80709".

(** The provider's origin and the four paths of its REST interface; the
    source writes each URL in full. *)
Definition origin : string := "https://payments.paypack.rw".

Definition authorize_url : string :=
  "https://payments.paypack.rw/api/auth/agents/authorize".

Definition cashin_url : string :=
  "https://payments.paypack.rw/api/transactions/cashin".

Definition cashout_url : string :=
  "https://payments.paypack.rw/api/transactions/cashout".

Definition find_url_prefix : string :=
  "https://payments.paypack.rw/api/transactions/find/".

Definition plain_headers : list (string * string) :=
  [("Content-Type", "application/json"); ("Accept", "application/json")].

Definition bearer_headers (credential : string) : list (string * string) :=
  [("Content-Type", "application/json");
   ("Accept", "application/json");
   ("Authorization", credential)].

(** The declared response shapes (pydantic classes).  Nothing in the module
    instantiates them; they are here to state that fact. *)
Definition is_str (v : pyval) : bool :=
  match v with PStr _ => true | _ => false end.

Definition is_int (v : pyval) : bool :=
  match v with PInt _ => true | _ => false end.

Definition is_number (v : pyval) : bool :=
  match v with PInt _ | PFloat _ => true | _ => false end.

Definition is_dict (v : pyval) : bool :=
  match v with PDict _ => true | _ => false end.

Definition field_is (p : pyval -> bool) (key : string) (v : pyval) : bool :=
  match getitem v key with
  | Ok x => p x
  | Raised _ => false
  end.

Definition fits_AuthResponse (v : pyval) : bool :=
  field_is is_str "access" v && field_is is_str "refresh" v
  && field_is is_int "expires" v.

Definition fits_Transaction (v : pyval) : bool :=
  field_is is_str "ref" v && field_is is_number "amount" v
  && field_is is_number "fee" v && field_is is_str "kind" v
  && field_is is_str "provider" v && field_is is_str "client" v
  && field_is is_dict "metadata" v && field_is is_str "merchant" v
  && field_is is_str "timestamp" v.

Definition fits_TransactionNotFound (v : pyval) : bool :=
  field_is is_str "message" v.

(** ** The operations *)

Section Client.

(** The transport and the three library functions. *)
Variable net : network.
Variable json_loads : string -> option pyval.
Variable dumps_text : pyval -> string.
Variable py_repr : pyval -> string.

(** [json.dumps(v)]: the text, or TypeError on a value it refuses. *)
Definition json_dumps (v : pyval) : M string :=
  lift (if serializable v then Ok (dumps_text v) else Raised TypeError).

(** [str(v)], which is also what an f-string field and [print] use: a
    str is itself, every other builtin goes through [repr]. *)
Definition py_str (v : pyval) : string :=
  match v with
  | PStr s => s
  | _ => py_repr v
  end.

(** [requests.request(method, url, headers=, data=, timeout=)]: the call
    is recorded, and its outcome is the network's. *)
Definition requests_request (meth : string) (u : string)
    (hs : list (string * string)) (d : payload) (t : Z) : M response :=
  fun w =>
    let q := mkRequest meth u hs d t in
    let w' := mkWorld (sent w ++ [q]) (stdout w) in
    match net (sent w) q with
    | Reply r => (Ok r, w')
    | Fails detail => (Raised (RequestException detail), w')
    end.

(** [response.json()]: the status is not consulted. *)
Definition response_json (r : response) : M pyval :=
  lift (match json_loads (text r) with
        | Some v => Ok v
        | None => Raised JSONDecodeError
        end).

(** [print(v)] *)
Definition print (v : pyval) : M unit :=
  fun w => (Ok tt, mkWorld (sent w) (stdout w ++ [py_str v])).

Definition authorize : M pyval :=
  let url := authorize_url in
  payload <- json_dumps (PDict [("client_id", PStr app_id);
                                ("client_secret", PStr app_secret)]) ;;
  let headers := plain_headers in
  response <- requests_request "POST" url headers (DataStr payload) 50000 ;;
  response_json response.

Definition cashin (number amount : pyval) : M pyval :=
  auth <- authorize ;;
  access_token <- lift (getitem auth "access") ;;
  let url := cashin_url in
  payload <- json_dumps (PDict [("amount", amount); ("number", number)]) ;;
  let headers := bearer_headers ("Bearer " ++ py_str access_token) in
  response <- requests_request "POST" url headers (DataStr payload) 50000 ;;
  response_json response.

Definition cashout (number amount : pyval) : M pyval :=
  auth <- authorize ;;
  access_token <- lift (getitem auth "access") ;;
  let url := cashout_url in
  payload <- json_dumps (PDict [("amount", amount); ("number", number)]) ;;
  let headers := bearer_headers ("Bearer " ++ py_str access_token) in
  response <- requests_request "POST" url headers (DataStr payload) 50000 ;;
  response_json response.

Definition find_transaction (ref : pyval) : M pyval :=
  auth <- authorize ;;
  access_token <- lift (getitem auth "access") ;;
  let url := (find_url_prefix ++ py_str ref)%string in
  let payload := DataDict [] in
  let headers := bearer_headers ("Bearer " ++ py_str access_token) in
  response <- requests_request "GET" url headers payload 50000 ;;
  response_json response.

(** The statements at the bottom of the module, run when it is loaded. *)
Definition module_body : M unit :=
  test <- find_transaction (PStr "dbed4dbb-f1bd-433d-ba57-e383c5faa96b") ;;
  print test.

End Client.

(** ** Reading a run *)

(** The requests an operation adds to the log when started in [w]. *)
Definition issued {A : Type} (m : M A) (w : world) : list request :=
  skipn (length (sent w)) (sent (snd (m w))).

Definition outcome_of {A : Type} (m : M A) (w : world) : result A :=
  fst (m w).

(** The same request aimed at another URL. *)
Definition set_url (u : string) (q : request) : request :=
  mkRequest (method q) u (headers q) (data q) (timeout q).

(** A cash-in request turned into the cash-out request; others unchanged. *)
Definition to_cashout (q : request) : request :=
  if String.eqb (url q) cashin_url then set_url cashout_url q else q.

(** The network with the status code of every reply replaced. *)
Definition restatus (st : list request -> request -> Z) (net : network)
  : network :=
  fun hist q =>
    match net hist q with
    | Reply r => Reply (mkResponse (st hist q) (text r))
    | Fails detail => Fails detail
    end.

Section Expected.

Variable net : network.
Variable json_loads : string -> option pyval.
Variable dumps_text : pyval -> string.
Variable py_repr : pyval -> string.

(** What [requests.request] followed by [.json()] gives, by outcome. *)
Definition decoded (o : outcome) : result pyval :=
  match o with
  | Reply r =>
      match json_loads (text r) with
      | Some v => Ok v
      | None => Raised JSONDecodeError
      end
  | Fails detail => Raised (RequestException detail)
  end.

(** The call [authorize] hands to the transport. *)
Definition authorize_request : request :=
  mkRequest "POST" authorize_url plain_headers
    (DataStr (dumps_text (PDict [("client_id", PStr app_id);
                                 ("client_secret", PStr app_secret)])))
    50000.

(** The call [cashin] and [cashout] hand over, at target [u]. *)
Definition transfer_request (u : string) (tok number amount : pyval)
  : request :=
  mkRequest "POST" u (bearer_headers ("Bearer " ++ py_str py_repr tok))
    (DataStr (dumps_text (PDict [("amount", amount); ("number", number)])))
    50000.

(** The call [find_transaction] hands over. *)
Definition find_request (tok ref : pyval) : request :=
  mkRequest "GET" (find_url_prefix ++ py_str py_repr ref)
    (bearer_headers ("Bearer " ++ py_str py_repr tok))
    (DataDict []) 50000.

(** Cash-in as the description of cash-out has it: the same steps with
    the target URL left open. *)
Definition transfer_to (target : string) (number amount : pyval)
  : M pyval :=
  auth <- authorize net json_loads dumps_text ;;
  access_token <- lift (getitem auth "access") ;;
  payload <- json_dumps dumps_text
               (PDict [("amount", amount); ("number", number)]) ;;
  let headers := bearer_headers ("Bearer " ++ py_str py_repr access_token) in
  response <- requests_request net "POST" target headers
                (DataStr payload) 50000 ;;
  response_json json_loads response.

(** An operation never repeats a call: the requests it adds go to
    pairwise different URLs, and a call the transport fails is the last
    one, its exception being the operation's outcome. *)
Definition no_retry {A : Type} (m : M A) : Prop :=
  forall w : world,
    exists new : list request,
      sent (snd (m w)) = sent w ++ new
      /\ NoDup (map url new)
      /\ forall pre q post detail,
           new = pre ++ q :: post ->
           net (sent w ++ pre) q = Fails detail ->
           post = [] /\ fst (m w) = Raised (RequestException detail).

End Expected.

(** ** A sample provider *)

Definition dq : string := String (ascii_of_nat 34) EmptyString.

Definition decimal (z : Z) : string := NilZero.string_of_int (Z.to_int z).

(** The text [json.dumps] writes for values made of None, bools, ints,
    lists, dicts and strs that need no escaping. *)
Fixpoint sample_dumps (v : pyval) : string :=
  match v with
  | PNone => "null"
  | PBool true => "true"
  | PBool false => "false"
  | PInt z => decimal z
  | PFloat _ => "NaN"
  | PStr s => dq ++ s ++ dq
  | PList items => "[" ++ String.concat ", " (map sample_dumps items) ++ "]"
  | PDict items =>
      "{" ++ String.concat ", "
               (map (fun kv => (dq ++ fst kv ++ dq ++ ": "
                                ++ sample_dumps (snd kv))%string) items)
          ++ "}"
  | PObject cls => "<" ++ cls ++ ">"
  end.

(** [repr] on the same values, strs being free of quotes. *)
Fixpoint sample_repr (v : pyval) : string :=
  match v with
  | PNone => "None"
  | PBool true => "True"
  | PBool false => "False"
  | PInt z => decimal z
  | PFloat _ => "nan"
  | PStr s => "'" ++ s ++ "'"
  | PList items => "[" ++ String.concat ", " (map sample_repr items) ++ "]"
  | PDict items =>
      "{" ++ String.concat ", "
               (map (fun kv => ("'" ++ fst kv ++ "': "
                                ++ sample_repr (snd kv))%string) items)
          ++ "}"
  | PObject cls => "<" ++ cls ++ " object>"
  end.

Definition sample_credential : pyval :=
  PDict [("access", PStr "tok-a1"); ("refresh", PStr "tok-r1");
         ("expires", PInt 900)].

Definition sample_odd_credential : pyval := PDict [("access", PInt 7)].

Definition sample_refusal : pyval :=
  PDict [("message", PStr "invalid client")].

Definition sample_not_found : pyval :=
  PDict [("message", PStr "transaction not found")].

Definition sample_transaction : pyval :=
  PDict [("ref", PStr "dbed4dbb-f1bd-433d-ba57-e383c5faa96b");
         ("amount", PInt 100); ("fee", PInt 2); ("kind", PStr "CASHIN");
         ("provider", PStr "mtn"); ("client", PStr "0780000000");
         ("metadata", PDict []); ("merchant", PStr "M1");
         ("timestamp", PStr "2024-01-01T00:00:00Z")].

(** A decoder that knows the bodies the sample providers send. *)
Definition sample_loads (body : string) : option pyval :=
  find (fun v => String.eqb body (sample_dumps v))
       [sample_credential; sample_odd_credential; sample_refusal;
        sample_not_found; sample_transaction; PList []].

(** A provider that grants every authorization and knows no transaction. *)
Definition sample_net : network :=
  fun _ q =>
    if String.eqb (url q) authorize_url
    then Reply (mkResponse 200 (sample_dumps sample_credential))
    else Reply (mkResponse 404 (sample_dumps sample_not_found)).

(** A provider that grants every authorization and finds the transaction. *)
Definition finding_net : network :=
  fun _ q =>
    if String.eqb (url q) authorize_url
    then Reply (mkResponse 200 (sample_dumps sample_credential))
    else Reply (mkResponse 200 (sample_dumps sample_transaction)).

(** A provider that refuses the client. *)
Definition refusing_net : network :=
  fun _ _ => Reply (mkResponse 401 (sample_dumps sample_refusal)).

(** A provider whose answers fit none of the declared shapes. *)
Definition odd_net : network :=
  fun _ q =>
    if String.eqb (url q) authorize_url
    then Reply (mkResponse 200 (sample_dumps sample_odd_credential))
    else Reply (mkResponse 500 (sample_dumps (PList []))).

Definition fresh : world := mkWorld [] [].

(** ** More sample providers *)

(** A gateway in front of the provider answering with a page of HTML. *)
Definition garbled_net : network :=
  fun _ _ => Reply (mkResponse 502 "<html>Bad Gateway</html>").

(** An argument [json.dumps] refuses. *)
Definition sample_set : pyval := PObject "set".

(** How many authorizations a history holds. *)
Definition authorizations_in (hist : list request) : nat :=
  length (filter (fun q => String.eqb (url q) authorize_url) hist).

Definition nth_credential (n : nat) : pyval :=
  PDict [("access", PStr ("tok-" ++ decimal (Z.of_nat n)))].

(** A provider that grants a new token at each authorization. *)
Definition rotating_net : network :=
  fun hist q =>
    if String.eqb (url q) authorize_url
    then Reply (mkResponse 200
                  (sample_dumps (nth_credential (authorizations_in hist))))
    else Reply (mkResponse 200 (sample_dumps sample_transaction)).

(** A decoder that knows the bodies [rotating_net] sends first. *)
Definition rotating_loads (body : string) : option pyval :=
  find (fun v => String.eqb body (sample_dumps v))
       [nth_credential 0; nth_credential 1; nth_credential 2;
        sample_transaction].

(** ** How each operation runs *)

Lemma skipn_length_app (A : Type) (l1 l2 : list A) :
  skipn (length l1) (l1 ++ l2) = l2.
Proof.
  induction l1 as [|x l1 IH]; simpl; auto.
Qed.

Lemma issued_from_log (A : Type) (m : M A) (w : world) (new : list request) :
  sent (snd (m w)) = sent w ++ new -> issued m w = new.
Proof.
  intros E. unfold issued. rewrite E. apply skipn_length_app.
Qed.

Lemma find_none_existsb (A : Type) (p : A -> bool) (l : list A) :
  existsb p l = false -> find p l = None.
Proof.
  induction l as [|x l IH]; simpl; intros E; auto.
  destruct (p x); simpl in E; [discriminate | auto].
Qed.

Lemma getitem_without_field (key : string) (v : pyval) :
  has_field key v = false ->
  getitem v key = Raised (KeyError key) \/ getitem v key = Raised TypeError.
Proof.
  destruct v; simpl; intros E; auto.
  left. unfold dict_get. rewrite (find_none_existsb _ _ E). reflexivity.
Qed.

Lemma serializable_transfer_payload (number amount : pyval) :
  serializable (PDict [("amount", amount); ("number", number)])
  = serializable amount && serializable number.
Proof.
  simpl. rewrite andb_true_r. reflexivity.
Qed.

Lemma authorize_url_not_cashin : authorize_url <> cashin_url.
Proof. discriminate. Qed.

Lemma authorize_url_not_cashout : authorize_url <> cashout_url.
Proof. discriminate. Qed.

Lemma authorize_url_not_find (s : string) :
  authorize_url <> (find_url_prefix ++ s)%string.
Proof.
  intros E. apply (f_equal (String.get 32)) in E. discriminate E.
Qed.

Section Runs.

Variable net : network.
Variable json_loads : string -> option pyval.
Variable dumps_text : pyval -> string.
Variable py_repr : pyval -> string.

Local Abbreviation areq := (authorize_request dumps_text).
Local Abbreviation after_authorize w :=
  (mkWorld (sent w ++ [areq]) (stdout w)).

Lemma authorize_run (w : world) :
  authorize net json_loads dumps_text w
  = (decoded json_loads (net (sent w) areq), after_authorize w).
Proof.
  unfold authorize, bind, json_dumps, lift, requests_request,
    response_json, decoded, authorize_request.
  simpl serializable. cbv iota.
  destruct (net (sent w) _) as [r|detail]; reflexivity.
Qed.

Lemma transfer_run (target : string) (number amount : pyval) (w : world) :
  transfer_to net json_loads dumps_text py_repr target number amount w
  = match decoded json_loads (net (sent w) areq) with
    | Raised e => (Raised e, after_authorize w)
    | Ok auth =>
        match getitem auth "access" with
        | Raised e => (Raised e, after_authorize w)
        | Ok tok =>
            if serializable amount && serializable number
            then
              let q := transfer_request dumps_text py_repr target tok
                         number amount in
              (decoded json_loads (net (sent w ++ [areq]) q),
               mkWorld (sent w ++ [areq; q]) (stdout w))
            else (Raised TypeError, after_authorize w)
        end
    end.
Proof.
  unfold transfer_to, bind. rewrite authorize_run.
  destruct (decoded json_loads (net (sent w) areq)) as [auth|e];
    [|reflexivity].
  unfold lift at 1.
  destruct (getitem auth "access") as [tok|e]; [|reflexivity].
  unfold json_dumps, lift.
  rewrite serializable_transfer_payload.
  destruct (serializable amount && serializable number); [|reflexivity].
  unfold requests_request, response_json, lift, decoded, transfer_request.
  cbn [sent stdout]. rewrite <- app_assoc. cbn [app].
  destruct (net (sent w ++ [areq]) _) as [r|detail]; reflexivity.
Qed.

Lemma cashin_as_transfer (number amount : pyval) (w : world) :
  cashin net json_loads dumps_text py_repr number amount w
  = transfer_to net json_loads dumps_text py_repr cashin_url
      number amount w.
Proof. reflexivity. Qed.

Lemma cashout_as_transfer (number amount : pyval) (w : world) :
  cashout net json_loads dumps_text py_repr number amount w
  = transfer_to net json_loads dumps_text py_repr cashout_url
      number amount w.
Proof. reflexivity. Qed.

Lemma find_transaction_run (ref : pyval) (w : world) :
  find_transaction net json_loads dumps_text py_repr ref w
  = match decoded json_loads (net (sent w) areq) with
    | Raised e => (Raised e, after_authorize w)
    | Ok auth =>
        match getitem auth "access" with
        | Raised e => (Raised e, after_authorize w)
        | Ok tok =>
            let q := find_request py_repr tok ref in
            (decoded json_loads (net (sent w ++ [areq]) q),
             mkWorld (sent w ++ [areq; q]) (stdout w))
        end
    end.
Proof.
  unfold find_transaction, bind. rewrite authorize_run.
  destruct (decoded json_loads (net (sent w) areq)) as [auth|e];
    [|reflexivity].
  unfold lift at 1.
  destruct (getitem auth "access") as [tok|e]; [|reflexivity].
  unfold requests_request, response_json, lift, decoded, find_request.
  cbn [sent stdout]. rewrite <- app_assoc. cbn [app].
  destruct (net (sent w ++ [areq]) _) as [r|detail]; reflexivity.
Qed.

End Runs.

(** ** The contract of the four operations *)

Section Contract.

Variable net : network.
Variable json_loads : string -> option pyval.
Variable dumps_text : pyval -> string.
Variable py_repr : pyval -> string.

Local Abbreviation areq := (authorize_request dumps_text).
Local Abbreviation authorize' := (authorize net json_loads dumps_text).
Local Abbreviation cashin' := (cashin net json_loads dumps_text py_repr).
Local Abbreviation cashout' := (cashout net json_loads dumps_text py_repr).
Local Abbreviation find_transaction' :=
  (find_transaction net json_loads dumps_text py_repr).

(** C3.  Every call to [authorize] hands the transport exactly one request:
    a POST to the authorization endpoint whose body is the serialization of
    the dict holding exactly the two embedded constants, under the two
    content headers only (no Authorization header).  Its outcome is the
    decoded body of the reply, as decoded. *)
Theorem authorize_single_post :
  forall w : world,
    issued authorize' w = [areq]
    /\ method areq = "POST"
    /\ url areq = (origin ++ "/api/auth/agents/authorize")%string
    /\ data areq
       = DataStr
           (dumps_text
              (PDict
                 [("client_id",
                   PStr "17eabc50-c552-11f0-9c11-deadd43720af");
                  ("client_secret",
                   PStr "9491032d457e34ef97a330564d321fd6da39a3ee5e6b4b0d3255bfef95601890afd80709")]))
    /\ map fst (headers areq) = ["Content-Type"; "Accept"]
    /\ outcome_of authorize' w = decoded json_loads (net (sent w) areq).
Proof.
  intros w. unfold outcome_of.
  split; [apply issued_from_log|]; rewrite authorize_run;
    repeat split; reflexivity.
Qed.

(** C2.  When the value [authorize] returns has no "access" field, each of
    [cashin], [cashout] and [find_transaction] raises (KeyError on a dict,
    TypeError on anything else) in the very world [authorize] left: the
    only request handed to the transport is the authorization one. *)
Theorem missing_access_stops_before_target :
  forall (number amount ref : pyval) (w w1 : world) (auth : pyval),
    authorize' w = (Ok auth, w1) ->
    has_field "access" auth = false ->
    exists e : exn,
      (e = KeyError "access" \/ e = TypeError)
      /\ cashin' number amount w = (Raised e, w1)
      /\ cashout' number amount w = (Raised e, w1)
      /\ find_transaction' ref w = (Raised e, w1)
      /\ issued (cashin' number amount) w = [areq]
      /\ issued (cashout' number amount) w = [areq]
      /\ issued (find_transaction' ref) w = [areq].
Proof.
  intros number amount ref w w1 auth Hrun Hfield.
  rewrite authorize_run in Hrun. injection Hrun as Hdec Hw1.
  assert (Hget : exists e, (e = KeyError "access" \/ e = TypeError)
                           /\ getitem auth "access" = Raised e).
  { destruct (getitem_without_field _ _ Hfield) as [E|E].
    - exists (KeyError "access"). split; [left; reflexivity | exact E].
    - exists TypeError. split; [right; reflexivity | exact E]. }
  destruct Hget as (e & He & Hget). exists e. split; [exact He|].
  assert (Hin : cashin' number amount w = (Raised e, w1)).
  { rewrite cashin_as_transfer, transfer_run, Hdec, Hget, Hw1.
    reflexivity. }
  assert (Hout : cashout' number amount w = (Raised e, w1)).
  { rewrite cashout_as_transfer, transfer_run, Hdec, Hget, Hw1.
    reflexivity. }
  assert (Hfind : find_transaction' ref w = (Raised e, w1)).
  { rewrite find_transaction_run, Hdec, Hget, Hw1. reflexivity. }
  repeat split; auto; apply issued_from_log;
    rewrite ?Hin, ?Hout, ?Hfind, <- Hw1; reflexivity.
Qed.

(** C1, as amended.  When the reply to the authorization request decodes to
    a value with an "access" field and [json.dumps] accepts number and
    amount, [cashin] (resp. [cashout]) hands over exactly two requests, in
    order: the authorization POST, built afresh whatever was sent before,
    then a POST to the cash-in (resp. cash-out) endpoint whose
    Authorization header is "Bearer " followed by [str] of that field (the
    field itself when it is a str) and whose body is the serialization of
    the dict of amount and number. *)
Theorem transfer_two_calls_when_authorized :
  forall (number amount : pyval) (w : world) (r : response)
         (auth tok : pyval),
    net (sent w) areq = Reply r ->
    json_loads (text r) = Some auth ->
    getitem auth "access" = Ok tok ->
    serializable number = true ->
    serializable amount = true ->
    let body :=
      DataStr (dumps_text (PDict [("amount", amount); ("number", number)])) in
    let hs :=
      [("Content-Type", "application/json");
       ("Accept", "application/json");
       ("Authorization", ("Bearer " ++ py_str py_repr tok)%string)] in
    issued (cashin' number amount) w
    = [areq;
       mkRequest "POST" (origin ++ "/api/transactions/cashin")%string
         hs body 50000]
    /\ issued (cashout' number amount) w
       = [areq;
          mkRequest "POST" (origin ++ "/api/transactions/cashout")%string
            hs body 50000]
    /\ forall s : string, tok = PStr s -> py_str py_repr tok = s.
Proof.
  intros number amount w r auth tok Hnet Hdec Hget Hn Ha body hs.
  assert (Hauth : decoded json_loads (net (sent w) areq) = Ok auth).
  { rewrite Hnet. simpl. rewrite Hdec. reflexivity. }
  split; [|split].
  - apply issued_from_log.
    rewrite cashin_as_transfer, transfer_run, Hauth, Hget, Hn, Ha.
    reflexivity.
  - apply issued_from_log.
    rewrite cashout_as_transfer, transfer_run, Hauth, Hget, Hn, Ha.
    reflexivity.
  - intros s ->. reflexivity.
Qed.

(** C4.  Once authorized, [find_transaction] returns whatever value the
    body of the lookup reply decodes to, as it is: the outcome is [Ok v]
    for every [v], with the same two requests handed over, so a found
    transaction and a not-found message reach the caller alike and
    untagged. *)
Theorem find_transaction_returns_payload_verbatim :
  forall (ref : pyval) (w : world) (r r2 : response) (auth tok v : pyval),
    net (sent w) areq = Reply r ->
    json_loads (text r) = Some auth ->
    getitem auth "access" = Ok tok ->
    net (sent w ++ [areq]) (find_request py_repr tok ref) = Reply r2 ->
    json_loads (text r2) = Some v ->
    outcome_of (find_transaction' ref) w = Ok v
    /\ issued (find_transaction' ref) w
       = [areq; find_request py_repr tok ref].
Proof.
  intros ref w r r2 auth tok v Hnet Hdec Hget Hnet2 Hdec2.
  unfold outcome_of.
  split; [|apply issued_from_log]; rewrite find_transaction_run, Hnet;
    cbn [decoded]; rewrite Hdec, Hget; cbn zeta; [|reflexivity].
  rewrite Hnet2. cbn [decoded fst]. rewrite Hdec2. reflexivity.
Qed.

(** C5.  [find_transaction] hands over the authorization POST and then at
    most one more request, a GET whose URL is the provider's origin, the
    path "/api/transactions/find/" and the reference, verbatim; that GET is
    sent whenever the authorization reply decodes to a value with an
    "access" field. *)
Theorem find_transaction_request_path :
  forall (s : string) (w : world),
    let lookup (tok : pyval) :=
      mkRequest "GET" (origin ++ "/api/transactions/find/" ++ s)%string
        (bearer_headers ("Bearer " ++ py_str py_repr tok)) (DataDict [])
        50000 in
    method areq = "POST"
    /\ (issued (find_transaction' (PStr s)) w = [areq]
        \/ exists tok : pyval,
             issued (find_transaction' (PStr s)) w = [areq; lookup tok])
    /\ forall (r : response) (auth tok : pyval),
         net (sent w) areq = Reply r ->
         json_loads (text r) = Some auth ->
         getitem auth "access" = Ok tok ->
         issued (find_transaction' (PStr s)) w = [areq; lookup tok].
Proof.
  intros s w lookup. split; [reflexivity|]. split.
  - destruct (decoded json_loads (net (sent w) areq)) as [auth|e] eqn:Hauth.
    + destruct (getitem auth "access") as [tok|e] eqn:Hget.
      * right. exists tok. apply issued_from_log.
        rewrite find_transaction_run, Hauth, Hget. reflexivity.
      * left. apply issued_from_log.
        rewrite find_transaction_run, Hauth, Hget. reflexivity.
    + left. apply issued_from_log.
      rewrite find_transaction_run, Hauth. reflexivity.
  - intros r auth tok Hnet Hdec Hget. apply issued_from_log.
    rewrite find_transaction_run, Hnet. cbn [decoded].
    rewrite Hdec, Hget. reflexivity.
Qed.

(** C8.  No operation checks what it decodes against the declared shapes:
    [authorize] returns any decoded value [auth], and once that value has
    an "access" field of any kind, [cashin], [cashout] and
    [find_transaction] return any value [v] the target reply decodes to.
    Neither [fits_AuthResponse] nor [fits_Transaction] nor
    [fits_TransactionNotFound] is asked of them. *)
Theorem responses_are_not_validated :
  forall (number amount ref : pyval) (w : world) (r : response)
         (auth : pyval),
    net (sent w) areq = Reply r ->
    json_loads (text r) = Some auth ->
    outcome_of authorize' w = Ok auth
    /\ forall (tok : pyval) (r2 : response) (v : pyval),
         getitem auth "access" = Ok tok ->
         json_loads (text r2) = Some v ->
         (serializable number = true ->
          serializable amount = true ->
          net (sent w ++ [areq])
            (transfer_request dumps_text py_repr cashin_url tok
               number amount) = Reply r2 ->
          outcome_of (cashin' number amount) w = Ok v)
         /\ (serializable number = true ->
             serializable amount = true ->
             net (sent w ++ [areq])
               (transfer_request dumps_text py_repr cashout_url tok
                  number amount) = Reply r2 ->
             outcome_of (cashout' number amount) w = Ok v)
         /\ (net (sent w ++ [areq]) (find_request py_repr tok ref)
             = Reply r2 ->
             outcome_of (find_transaction' ref) w = Ok v).
Proof.
  intros number amount ref w r auth Hnet Hdec.
  assert (Hauth : decoded json_loads (net (sent w) areq) = Ok auth).
  { rewrite Hnet. cbn [decoded]. rewrite Hdec. reflexivity. }
  unfold outcome_of. split.
  - rewrite authorize_run. exact Hauth.
  - intros tok r2 v Hget Hdec2. repeat split.
    + intros Hn Ha Hnet2.
      rewrite cashin_as_transfer, transfer_run, Hauth, Hget, Hn, Ha.
      cbn [andb]. cbn zeta. rewrite Hnet2. cbn [decoded fst].
      rewrite Hdec2. reflexivity.
    + intros Hn Ha Hnet2.
      rewrite cashout_as_transfer, transfer_run, Hauth, Hget, Hn, Ha.
      cbn [andb]. cbn zeta. rewrite Hnet2. cbn [decoded fst].
      rewrite Hdec2. reflexivity.
    + intros Hnet2.
      rewrite find_transaction_run, Hauth, Hget. cbn zeta.
      rewrite Hnet2. cbn [decoded fst]. rewrite Hdec2. reflexivity.
Qed.

Lemma find_transaction_request_shape (ref : pyval) (w : world) :
  issued (find_transaction' ref) w = [areq]
  \/ exists q : request, issued (find_transaction' ref) w = [areq; q].
Proof.
  destruct (decoded json_loads (net (sent w) areq)) as [auth|e] eqn:Hauth;
    [destruct (getitem auth "access") as [tok|e] eqn:Hget|].
  - right. eexists. apply issued_from_log.
    rewrite find_transaction_run, Hauth, Hget. reflexivity.
  - left. apply issued_from_log.
    rewrite find_transaction_run, Hauth, Hget. reflexivity.
  - left. apply issued_from_log.
    rewrite find_transaction_run, Hauth. reflexivity.
Qed.

(** The two shapes a run can take, each of them free of retries. *)
Lemma no_retry_from_shape (A : Type) (m : M A) :
  (forall w : world,
      (sent (snd (m w)) = sent w ++ [areq]
       /\ forall detail, net (sent w) areq = Fails detail ->
                         fst (m w) = Raised (RequestException detail))
      \/ (exists q : request,
             url q <> authorize_url
             /\ sent (snd (m w)) = sent w ++ [areq; q]
             /\ (forall detail, net (sent w) areq <> Fails detail)
             /\ forall detail, net (sent w ++ [areq]) q = Fails detail ->
                               fst (m w) = Raised (RequestException detail))) ->
  no_retry net m.
Proof.
  intros Hshape w.
  destruct (Hshape w) as [[Hlog Hfail] | (q & Hurl & Hlog & Hfirst & Hfail)].
  - exists [areq]. split; [exact Hlog|]. split.
    + repeat constructor. simpl. tauto.
    + intros pre q post detail Hnew Hnet.
      destruct pre as [|x pre]; simpl in Hnew.
      * injection Hnew as <- <-. rewrite app_nil_r in Hnet. auto.
      * injection Hnew as _ Hnew. destruct pre; discriminate Hnew.
  - exists [areq; q]. split; [exact Hlog|]. split.
    + constructor; [|repeat constructor; simpl; tauto].
      simpl. intros [E|[]]. apply Hurl. exact E.
    + intros pre q0 post detail Hnew Hnet.
      destruct pre as [|x pre]; simpl in Hnew.
      * injection Hnew as <- <-. rewrite app_nil_r in Hnet.
        exfalso. exact (Hfirst _ Hnet).
      * injection Hnew as <- Hnew.
        destruct pre as [|y pre]; simpl in Hnew.
        -- injection Hnew as <- <-. auto.
        -- injection Hnew as _ Hnew. destruct pre; discriminate Hnew.
Qed.

Lemma decoded_failure (o : outcome) (detail : string) :
  o = Fails detail ->
  decoded json_loads o = Raised (RequestException detail).
Proof. intros ->. reflexivity. Qed.

Lemma decoded_value_is_reply (o : outcome) (v : pyval) :
  decoded json_loads o = Ok v -> forall detail, o <> Fails detail.
Proof.
  intros Hdec detail ->. discriminate Hdec.
Qed.

Lemma authorize_no_retry : no_retry net authorize'.
Proof.
  apply no_retry_from_shape. intros w. left.
  rewrite authorize_run. split; [reflexivity|].
  intros detail Hnet. apply decoded_failure. exact Hnet.
Qed.

Lemma transfer_no_retry (target : string) (number amount : pyval) :
  target <> authorize_url ->
  no_retry net
    (transfer_to net json_loads dumps_text py_repr target number amount).
Proof.
  intros Htarget. apply no_retry_from_shape. intros w.
  rewrite transfer_run.
  destruct (decoded json_loads (net (sent w) areq)) as [auth|e] eqn:Hauth.
  - destruct (getitem auth "access") as [tok|e].
    + destruct (serializable amount && serializable number).
      * right. eexists. split; [|split; [reflexivity|split]].
        -- exact Htarget.
        -- exact (decoded_value_is_reply Hauth).
        -- intros detail Hnet. apply decoded_failure. exact Hnet.
      * left. split; [reflexivity|]. intros detail Hnet.
        rewrite (decoded_failure Hnet) in Hauth. discriminate Hauth.
    + left. split; [reflexivity|]. intros detail Hnet.
      rewrite (decoded_failure Hnet) in Hauth. discriminate Hauth.
  - left. split; [reflexivity|]. intros detail Hnet.
    rewrite (decoded_failure Hnet) in Hauth. symmetry. exact Hauth.
Qed.

Lemma find_transaction_no_retry (ref : pyval) :
  no_retry net (find_transaction' ref).
Proof.
  apply no_retry_from_shape. intros w.
  rewrite find_transaction_run.
  destruct (decoded json_loads (net (sent w) areq)) as [auth|e] eqn:Hauth.
  - destruct (getitem auth "access") as [tok|e].
    + right. eexists. split; [|split; [reflexivity|split]].
      * intros E. symmetry in E.
        exact (authorize_url_not_find (s := py_str py_repr ref) E).
      * exact (decoded_value_is_reply Hauth).
      * intros detail Hnet. apply decoded_failure. exact Hnet.
    + left. split; [reflexivity|]. intros detail Hnet.
      rewrite (decoded_failure Hnet) in Hauth. discriminate Hauth.
  - left. split; [reflexivity|]. intros detail Hnet.
    rewrite (decoded_failure Hnet) in Hauth. symmetry. exact Hauth.
Qed.

(** C7.  No operation retries: within one invocation of [authorize],
    [cashin], [cashout] or [find_transaction] the requests handed over go
    to pairwise different URLs, and a request the transport fails is the
    last one of the invocation, its exception being what the caller
    gets. *)
Theorem operations_never_retry :
  no_retry net authorize'
  /\ (forall number amount : pyval,
        no_retry net (cashin' number amount)
        /\ no_retry net (cashout' number amount))
  /\ forall ref : pyval, no_retry net (find_transaction' ref).
Proof.
  split; [exact authorize_no_retry|]. split.
  - intros number amount. split.
    + apply (transfer_no_retry number amount (target := cashin_url)).
      intros E. symmetry in E. exact (authorize_url_not_cashin E).
    + apply (transfer_no_retry number amount (target := cashout_url)).
      intros E. symmetry in E. exact (authorize_url_not_cashout E).
  - exact find_transaction_no_retry.
Qed.

(** C9.  [cashout] is [cashin] with the cash-out URL in place of the
    cash-in URL: both are the same steps at their own target, and on a
    network that answers the two targets alike they give the same outcome,
    print nothing, and hand over the same requests up to that URL. *)
Theorem cashout_is_cashin_at_other_url :
  forall (number amount : pyval) (w : world),
    cashin' number amount w
    = transfer_to net json_loads dumps_text py_repr cashin_url
        number amount w
    /\ cashout' number amount w
       = transfer_to net json_loads dumps_text py_repr cashout_url
           number amount w
    /\ ((forall hist q,
           url q = cashin_url -> net hist (set_url cashout_url q) = net hist q) ->
        outcome_of (cashout' number amount) w
        = outcome_of (cashin' number amount) w
        /\ issued (cashout' number amount) w
           = map to_cashout (issued (cashin' number amount) w)
        /\ stdout (snd (cashout' number amount w))
           = stdout (snd (cashin' number amount w))).
Proof.
  intros number amount w.
  split; [apply cashin_as_transfer|]. split; [apply cashout_as_transfer|].
  intros Halike.
  assert (Hsame :
    forall tok,
      net (sent w ++ [areq])
        (transfer_request dumps_text py_repr cashout_url tok number amount)
      = net (sent w ++ [areq])
          (transfer_request dumps_text py_repr cashin_url tok
             number amount)).
  { intros tok.
    apply (Halike (sent w ++ [areq])
             (transfer_request dumps_text py_repr cashin_url tok
                number amount)).
    reflexivity. }
  unfold outcome_of, issued.
  rewrite cashin_as_transfer, cashout_as_transfer, !transfer_run.
  destruct (decoded json_loads (net (sent w) areq)) as [auth|e];
    [destruct (getitem auth "access") as [tok|e];
     [destruct (serializable amount && serializable number)|]|];
    cbn zeta; cbn [fst snd sent stdout];
    rewrite ?skipn_length_app, ?Hsame; repeat split; reflexivity.
Qed.

(** C10.  Loading the module runs [find_transaction] on the literal
    reference with no guard around it: whatever the world, the load hands
    the transport exactly the requests of that lookup, the authorization
    POST first, and when the lookup returns a value the load prints it. *)
Theorem loading_the_module_calls_the_provider :
  forall w : world,
    let load := module_body net json_loads dumps_text py_repr in
    let lookup :=
      find_transaction' (PStr "dbed4dbb-f1bd-433d-ba57-e383c5faa96b") in
    issued load w = issued lookup w
    /\ (exists rest : list request, issued load w = areq :: rest)
    /\ match lookup w with
       | (Ok v, w1) =>
           load w
           = (Ok tt, mkWorld (sent w1) (stdout w1 ++ [py_str py_repr v]))
       | (Raised e, w1) => load w = (Raised e, w1)
       end.
Proof.
  intros w load lookup.
  assert (Hsame : issued load w = issued lookup w).
  { unfold issued, load, lookup, module_body, bind, print.
    destruct (find_transaction' _ w) as [[v|e] w1]; reflexivity. }
  split; [exact Hsame|]. split.
  - rewrite Hsame. unfold lookup.
    destruct (find_transaction_request_shape
                (PStr "dbed4dbb-f1bd-433d-ba57-e383c5faa96b") w)
      as [E | [q E]]; rewrite E; eauto.
  - unfold load, lookup, module_body, bind, print.
    destruct (find_transaction' _ w) as [[v|e] w1]; reflexivity.
Qed.

End Contract.

(** ** Status codes *)

Lemma decoded_restatus (st : list request -> request -> Z) (net : network)
    (json_loads : string -> option pyval) (hist : list request)
    (q : request) :
  decoded json_loads (restatus st net hist q)
  = decoded json_loads (net hist q).
Proof.
  unfold restatus. destruct (net hist q); reflexivity.
Qed.

Lemma transfer_restatus (st : list request -> request -> Z) (net : network)
    (json_loads : string -> option pyval) (dumps_text py_repr : pyval -> string)
    (target : string) (number amount : pyval) (w : world) :
  transfer_to (restatus st net) json_loads dumps_text py_repr target
    number amount w
  = transfer_to net json_loads dumps_text py_repr target number amount w.
Proof.
  rewrite !transfer_run, decoded_restatus.
  destruct (decoded json_loads (net (sent w) _)) as [auth|e];
    [|reflexivity].
  destruct (getitem auth "access") as [tok|e]; [|reflexivity].
  destruct (serializable amount && serializable number); [|reflexivity].
  cbn zeta. rewrite decoded_restatus. reflexivity.
Qed.

(** C6.  No operation looks at the status code.  Whatever the status of a
    reply, its body is decoded and the value returned: by [authorize] for
    the authorization reply, and by [cashin], [cashout] and
    [find_transaction] for the reply of their target, the authorization
    reply being of any status too.  Accordingly, replacing the status of
    every reply by any other leaves outcome and effects of the four
    operations unchanged. *)
Theorem status_code_is_not_inspected :
  forall (net : network) (json_loads : string -> option pyval)
         (dumps_text py_repr : pyval -> string)
         (st : list request -> request -> Z)
         (number amount ref : pyval) (w : world),
    authorize (restatus st net) json_loads dumps_text w
    = authorize net json_loads dumps_text w
    /\ cashin (restatus st net) json_loads dumps_text py_repr number amount w
       = cashin net json_loads dumps_text py_repr number amount w
    /\ cashout (restatus st net) json_loads dumps_text py_repr number amount w
       = cashout net json_loads dumps_text py_repr number amount w
    /\ find_transaction (restatus st net) json_loads dumps_text py_repr ref w
       = find_transaction net json_loads dumps_text py_repr ref w
    /\ (forall (code : Z) (body : string) (v : pyval),
          net (sent w) (authorize_request dumps_text)
          = Reply (mkResponse code body) ->
          json_loads body = Some v ->
          outcome_of (authorize net json_loads dumps_text) w = Ok v)
    /\ forall (code1 code2 : Z) (body1 body2 : string)
              (auth tok v : pyval),
         net (sent w) (authorize_request dumps_text)
         = Reply (mkResponse code1 body1) ->
         json_loads body1 = Some auth ->
         getitem auth "access" = Ok tok ->
         json_loads body2 = Some v ->
         (serializable amount && serializable number = true ->
          net (sent w ++ [authorize_request dumps_text])
            (transfer_request dumps_text py_repr cashin_url tok
               number amount)
          = Reply (mkResponse code2 body2) ->
          outcome_of
            (cashin net json_loads dumps_text py_repr number amount) w
          = Ok v)
         /\ (serializable amount && serializable number = true ->
             net (sent w ++ [authorize_request dumps_text])
               (transfer_request dumps_text py_repr cashout_url tok
                  number amount)
             = Reply (mkResponse code2 body2) ->
             outcome_of
               (cashout net json_loads dumps_text py_repr number amount) w
             = Ok v)
         /\ (net (sent w ++ [authorize_request dumps_text])
               (find_request py_repr tok ref)
             = Reply (mkResponse code2 body2) ->
             outcome_of
               (find_transaction net json_loads dumps_text py_repr ref) w
             = Ok v).
Proof.
  intros net json_loads dumps_text py_repr st number amount ref w.
  split; [|split; [|split; [|split; [|split]]]].
  - rewrite !authorize_run, decoded_restatus. reflexivity.
  - rewrite !cashin_as_transfer. apply transfer_restatus.
  - rewrite !cashout_as_transfer. apply transfer_restatus.
  - rewrite !find_transaction_run, decoded_restatus.
    destruct (decoded json_loads (net (sent w) _)) as [auth|e];
      [|reflexivity].
    destruct (getitem auth "access") as [tok|e]; [|reflexivity].
    cbn zeta. rewrite decoded_restatus. reflexivity.
  - intros code body v Hnet Hdec. unfold outcome_of.
    rewrite authorize_run, Hnet. cbn [fst decoded text].
    rewrite Hdec. reflexivity.
  - intros code1 code2 body1 body2 auth tok v Hnet Hdec Hget Hdec2.
    assert (Hauth :
      decoded json_loads (net (sent w) (authorize_request dumps_text))
      = Ok auth).
    { rewrite Hnet. cbn [decoded text]. rewrite Hdec. reflexivity. }
    unfold outcome_of. split; [|split].
    + intros Hser Hnet2.
      rewrite cashin_as_transfer, transfer_run, Hauth, Hget, Hser.
      cbn zeta. rewrite Hnet2. cbn [fst decoded text].
      rewrite Hdec2. reflexivity.
    + intros Hser Hnet2.
      rewrite cashout_as_transfer, transfer_run, Hauth, Hget, Hser.
      cbn zeta. rewrite Hnet2. cbn [fst decoded text].
      rewrite Hdec2. reflexivity.
    + intros Hnet2.
      rewrite find_transaction_run, Hauth, Hget.
      cbn zeta. rewrite Hnet2. cbn [fst decoded text].
      rewrite Hdec2. reflexivity.
Qed.

(** ** The contract on the sample providers *)

(** Counterexample to C1 as first stated: a provider that refuses the
    client gets the authorization request and nothing else, [cashin]
    raising on the missing field, so one call is made and not two. *)
Lemma cashin_refused_makes_one_call :
  outcome_of
    (cashin refusing_net sample_loads sample_dumps sample_repr
       (PStr "0780000000") (PInt 100)) fresh
  = Raised (KeyError "access")
  /\ issued
       (cashin refusing_net sample_loads sample_dumps sample_repr
          (PStr "0780000000") (PInt 100)) fresh
     = [authorize_request sample_dumps]
  /\ length
       (issued
          (cashin refusing_net sample_loads sample_dumps sample_repr
             (PStr "0780000000") (PInt 100)) fresh)
     <> 2%nat.
Proof.
  split; [reflexivity|]. split; [reflexivity|].
  vm_compute. discriminate.
Qed.

Lemma transfer_two_calls_when_authorized_witness :
  issued
    (cashin sample_net sample_loads sample_dumps sample_repr
       (PStr "0780000000") (PInt 100)) fresh
  = [authorize_request sample_dumps;
     mkRequest "POST" "https://payments.paypack.rw/api/transactions/cashin"
       [("Content-Type", "application/json");
        ("Accept", "application/json");
        ("Authorization", "Bearer tok-a1")]
       (DataStr
          (sample_dumps
             (PDict [("amount", PInt 100);
                     ("number", PStr "0780000000")])))
       50000]
  /\ issued
       (cashout sample_net sample_loads sample_dumps sample_repr
          (PStr "0780000000") (PInt 100)) fresh
     = [authorize_request sample_dumps;
        mkRequest "POST"
          "https://payments.paypack.rw/api/transactions/cashout"
          [("Content-Type", "application/json");
           ("Accept", "application/json");
           ("Authorization", "Bearer tok-a1")]
          (DataStr
             (sample_dumps
                (PDict [("amount", PInt 100);
                        ("number", PStr "0780000000")])))
          50000].
Proof.
  destruct (@transfer_two_calls_when_authorized
              sample_net sample_loads sample_dumps sample_repr
              (PStr "0780000000") (PInt 100) fresh
              (mkResponse 200 (sample_dumps sample_credential))
              sample_credential (PStr "tok-a1")
              eq_refl eq_refl eq_refl eq_refl eq_refl)
    as (Hin & Hout & _).
  split; [exact Hin | exact Hout].
Defined.

Lemma missing_access_stops_before_target_witness :
  has_field "access" sample_refusal = false
  /\ exists e : exn,
       (e = KeyError "access" \/ e = TypeError)
       /\ cashin refusing_net sample_loads sample_dumps sample_repr
            (PStr "0780000000") (PInt 100) fresh
          = (Raised e, mkWorld [authorize_request sample_dumps] [])
       /\ cashout refusing_net sample_loads sample_dumps sample_repr
            (PStr "0780000000") (PInt 100) fresh
          = (Raised e, mkWorld [authorize_request sample_dumps] [])
       /\ find_transaction refusing_net sample_loads sample_dumps sample_repr
            (PStr "dbed4dbb-f1bd-433d-ba57-e383c5faa96b") fresh
          = (Raised e, mkWorld [authorize_request sample_dumps] []).
Proof.
  split; [reflexivity|].
  destruct (@missing_access_stops_before_target
              refusing_net sample_loads sample_dumps sample_repr
              (PStr "0780000000") (PInt 100)
              (PStr "dbed4dbb-f1bd-433d-ba57-e383c5faa96b")
              fresh (mkWorld [authorize_request sample_dumps] [])
              sample_refusal eq_refl eq_refl)
    as (e & He & Hin & Hout & Hfind & _).
  exists e. repeat split; assumption.
Defined.

Lemma find_transaction_returns_payload_verbatim_witness :
  (fits_Transaction sample_transaction = true
   /\ outcome_of
        (find_transaction finding_net sample_loads sample_dumps sample_repr
           (PStr "dbed4dbb-f1bd-433d-ba57-e383c5faa96b")) fresh
      = Ok sample_transaction)
  /\ (fits_TransactionNotFound sample_not_found = true
      /\ outcome_of
           (find_transaction sample_net sample_loads sample_dumps sample_repr
              (PStr "dbed4dbb-f1bd-433d-ba57-e383c5faa96b")) fresh
         = Ok sample_not_found).
Proof.
  split; (split; [reflexivity|]).
  - exact (proj1
             (@find_transaction_returns_payload_verbatim
                finding_net sample_loads sample_dumps sample_repr
                (PStr "dbed4dbb-f1bd-433d-ba57-e383c5faa96b") fresh
                (mkResponse 200 (sample_dumps sample_credential))
                (mkResponse 200 (sample_dumps sample_transaction))
                sample_credential (PStr "tok-a1") sample_transaction
                eq_refl eq_refl eq_refl eq_refl eq_refl)).
  - exact (proj1
             (@find_transaction_returns_payload_verbatim
                sample_net sample_loads sample_dumps sample_repr
                (PStr "dbed4dbb-f1bd-433d-ba57-e383c5faa96b") fresh
                (mkResponse 200 (sample_dumps sample_credential))
                (mkResponse 404 (sample_dumps sample_not_found))
                sample_credential (PStr "tok-a1") sample_not_found
                eq_refl eq_refl eq_refl eq_refl eq_refl)).
Defined.

Lemma find_transaction_request_path_witness :
  issued
    (find_transaction sample_net sample_loads sample_dumps sample_repr
       (PStr "dbed4dbb-f1bd-433d-ba57-e383c5faa96b")) fresh
  = [authorize_request sample_dumps;
     mkRequest "GET"
       "https://payments.paypack.rw/api/transactions/find/dbed4dbb-f1bd-433d-ba57-e383c5faa96b"
       [("Content-Type", "application/json");
        ("Accept", "application/json");
        ("Authorization", "Bearer tok-a1")]
       (DataDict []) 50000].
Proof.
  exact (proj2 (proj2
           (@find_transaction_request_path
              sample_net sample_loads sample_dumps sample_repr
              "dbed4dbb-f1bd-433d-ba57-e383c5faa96b" fresh))
           (mkResponse 200 (sample_dumps sample_credential))
           sample_credential (PStr "tok-a1") eq_refl eq_refl eq_refl).
Defined.

Lemma status_code_is_not_inspected_witness :
  outcome_of (authorize refusing_net sample_loads sample_dumps) fresh
  = Ok sample_refusal
  /\ outcome_of
       (cashin odd_net sample_loads sample_dumps sample_repr
          (PStr "0780000000") (PInt 100)) fresh
     = Ok (PList [])
  /\ outcome_of
       (find_transaction sample_net sample_loads sample_dumps sample_repr
          (PStr "dbed4dbb-f1bd-433d-ba57-e383c5faa96b")) fresh
     = Ok sample_not_found
  /\ find_transaction (restatus (fun _ _ => 503) finding_net)
       sample_loads sample_dumps sample_repr
       (PStr "dbed4dbb-f1bd-433d-ba57-e383c5faa96b") fresh
     = find_transaction finding_net sample_loads sample_dumps sample_repr
         (PStr "dbed4dbb-f1bd-433d-ba57-e383c5faa96b") fresh.
Proof.
  split; [|split; [|split]].
  - apply (proj1 (proj2 (proj2 (proj2 (proj2
             (@status_code_is_not_inspected
                refusing_net sample_loads sample_dumps sample_repr
                (fun _ _ => 503) PNone PNone PNone fresh)))))
             401 (sample_dumps sample_refusal) sample_refusal);
      reflexivity.
  - apply (proj1
             (proj2 (proj2 (proj2 (proj2 (proj2
                (@status_code_is_not_inspected
                   odd_net sample_loads sample_dumps sample_repr
                   (fun _ _ => 503) (PStr "0780000000") (PInt 100) PNone
                   fresh)))))
                200 500 (sample_dumps sample_odd_credential)
                (sample_dumps (PList [])) sample_odd_credential (PInt 7)
                (PList []) eq_refl eq_refl eq_refl eq_refl));
      reflexivity.
  - apply (proj2 (proj2
             (proj2 (proj2 (proj2 (proj2 (proj2
                (@status_code_is_not_inspected
                   sample_net sample_loads sample_dumps sample_repr
                   (fun _ _ => 503) PNone PNone
                   (PStr "dbed4dbb-f1bd-433d-ba57-e383c5faa96b")
                   fresh)))))
                200 404 (sample_dumps sample_credential)
                (sample_dumps sample_not_found) sample_credential
                (PStr "tok-a1") sample_not_found
                eq_refl eq_refl eq_refl eq_refl)));
      reflexivity.
  - exact (proj1 (proj2 (proj2 (proj2
             (@status_code_is_not_inspected
                finding_net sample_loads sample_dumps sample_repr
                (fun _ _ => 503) PNone PNone
                (PStr "dbed4dbb-f1bd-433d-ba57-e383c5faa96b") fresh))))).
Defined.

Lemma responses_are_not_validated_witness :
  fits_AuthResponse sample_odd_credential = false
  /\ fits_Transaction (PList []) = false
  /\ fits_TransactionNotFound (PList []) = false
  /\ outcome_of (authorize odd_net sample_loads sample_dumps) fresh
     = Ok sample_odd_credential
  /\ outcome_of
       (cashin odd_net sample_loads sample_dumps sample_repr
          (PStr "0780000000") (PInt 100)) fresh
     = Ok (PList [])
  /\ outcome_of
       (find_transaction odd_net sample_loads sample_dumps sample_repr
          (PStr "dbed4dbb-f1bd-433d-ba57-e383c5faa96b")) fresh
     = Ok (PList []).
Proof.
  destruct (@responses_are_not_validated
              odd_net sample_loads sample_dumps sample_repr
              (PStr "0780000000") (PInt 100)
              (PStr "dbed4dbb-f1bd-433d-ba57-e383c5faa96b") fresh
              (mkResponse 200 (sample_dumps sample_odd_credential))
              sample_odd_credential eq_refl eq_refl)
    as (Hauth & Hrest).
  destruct (Hrest (PInt 7) (mkResponse 500 (sample_dumps (PList [])))
              (PList []) eq_refl eq_refl)
    as (Hin & _ & Hfind).
  split; [reflexivity|]. split; [reflexivity|]. split; [reflexivity|].
  split; [exact Hauth|]. split.
  - exact (Hin eq_refl eq_refl eq_refl).
  - exact (Hfind eq_refl).
Defined.

Lemma cashout_is_cashin_at_other_url_witness :
  outcome_of
    (cashout sample_net sample_loads sample_dumps sample_repr
       (PStr "0780000000") (PInt 100)) fresh
  = outcome_of
      (cashin sample_net sample_loads sample_dumps sample_repr
         (PStr "0780000000") (PInt 100)) fresh
  /\ issued
       (cashout sample_net sample_loads sample_dumps sample_repr
          (PStr "0780000000") (PInt 100)) fresh
     = map to_cashout
         (issued
            (cashin sample_net sample_loads sample_dumps sample_repr
               (PStr "0780000000") (PInt 100)) fresh).
Proof.
  assert (Halike :
    forall hist q,
      url q = cashin_url ->
      sample_net hist (set_url cashout_url q) = sample_net hist q).
  { intros hist q Hq. unfold sample_net, set_url. simpl url.
    rewrite Hq. reflexivity. }
  destruct (proj2 (proj2
              (@cashout_is_cashin_at_other_url
                 sample_net sample_loads sample_dumps sample_repr
                 (PStr "0780000000") (PInt 100) fresh)) Halike)
    as (Hres & Hreq & _).
  split; [exact Hres | exact Hreq].
Defined.

(** ** Further properties of the operations *)

Section Further.

Variable net : network.
Variable json_loads : string -> option pyval.
Variable dumps_text : pyval -> string.
Variable py_repr : pyval -> string.

Local Abbreviation areq := (authorize_request dumps_text).
Local Abbreviation authorize' := (authorize net json_loads dumps_text).
Local Abbreviation cashin' := (cashin net json_loads dumps_text py_repr).
Local Abbreviation cashout' := (cashout net json_loads dumps_text py_repr).
Local Abbreviation find_transaction' :=
  (find_transaction net json_loads dumps_text py_repr).
Local Abbreviation module_body' :=
  (module_body net json_loads dumps_text py_repr).
Local Abbreviation transfer_to' :=
  (transfer_to net json_loads dumps_text py_repr).
Local Abbreviation transfer_request' :=
  (transfer_request dumps_text py_repr).

Lemma decoded_ok (o : outcome) (v : pyval) :
  decoded json_loads o = Ok v ->
  exists r : response, o = Reply r /\ json_loads (text r) = Some v.
Proof.
  destruct o as [r|detail]; simpl; [|discriminate].
  destruct (json_loads (text r)) as [x|] eqn:E; [|discriminate].
  intros H. injection H as ->. exists r. auto.
Qed.

Lemma transfer_issued (target : string) (number amount : pyval) (w : world) :
  issued (transfer_to' target number amount) w = [areq]
  \/ exists tok : pyval,
       issued (transfer_to' target number amount) w
       = [areq; transfer_request' target tok number amount].
Proof.
  destruct (decoded json_loads (net (sent w) areq)) as [auth|e] eqn:Hauth;
    [destruct (getitem auth "access") as [tok|e] eqn:Hget;
     [destruct (serializable amount && serializable number) eqn:Hser|]|].
  - right. exists tok. apply issued_from_log.
    rewrite transfer_run, Hauth, Hget, Hser. reflexivity.
  - left. apply issued_from_log.
    rewrite transfer_run, Hauth, Hget, Hser. reflexivity.
  - left. apply issued_from_log.
    rewrite transfer_run, Hauth, Hget. reflexivity.
  - left. apply issued_from_log.
    rewrite transfer_run, Hauth. reflexivity.
Qed.

Lemma find_issued (ref : pyval) (w : world) :
  issued (find_transaction' ref) w = [areq]
  \/ exists tok : pyval,
       issued (find_transaction' ref) w
       = [areq; find_request py_repr tok ref].
Proof.
  destruct (decoded json_loads (net (sent w) areq)) as [auth|e] eqn:Hauth;
    [destruct (getitem auth "access") as [tok|e] eqn:Hget|].
  - right. exists tok. apply issued_from_log.
    rewrite find_transaction_run, Hauth, Hget. reflexivity.
  - left. apply issued_from_log.
    rewrite find_transaction_run, Hauth, Hget. reflexivity.
  - left. apply issued_from_log.
    rewrite find_transaction_run, Hauth. reflexivity.
Qed.

Lemma module_body_run (w : world) :
  module_body' w
  = match find_transaction'
            (PStr "dbed4dbb-f1bd-433d-ba57-e383c5faa96b") w with
    | (Ok v, w1) =>
        (Ok tt, mkWorld (sent w1) (stdout w1 ++ [py_str py_repr v]))
    | (Raised e, w1) => (Raised e, w1)
    end.
Proof.
  unfold module_body, bind, print.
  destruct (find_transaction' _ w) as [[v|e] w1]; reflexivity.
Qed.

(** X1.  A failure of [authorize] is the failure of the operation that
    called it: [cashin], [cashout], [find_transaction] and the module load
    raise the same exception and stop in the world [authorize] left. *)
Theorem authorize_failure_propagates :
  forall (number amount ref : pyval) (w w1 : world) (e : exn),
    authorize' w = (Raised e, w1) ->
    cashin' number amount w = (Raised e, w1)
    /\ cashout' number amount w = (Raised e, w1)
    /\ find_transaction' ref w = (Raised e, w1)
    /\ module_body' w = (Raised e, w1).
Proof.
  intros number amount ref w w1 e Hrun.
  rewrite authorize_run in Hrun. injection Hrun as Hdec Hw1.
  assert (Hfind : forall x, find_transaction' x w = (Raised e, w1)).
  { intros x. rewrite find_transaction_run, Hdec, Hw1. reflexivity. }
  split; [|split; [|split]].
  - rewrite cashin_as_transfer, transfer_run, Hdec, Hw1. reflexivity.
  - rewrite cashout_as_transfer, transfer_run, Hdec, Hw1. reflexivity.
  - apply Hfind.
  - rewrite module_body_run, Hfind. reflexivity.
Qed.

(** X2.  An amount or number holding an object of a class [json.dumps]
    has no encoding for (a set, bytes, a Decimal) is found out only after
    authorizing: [cashin] and [cashout] hand over the authorization
    request, raise, and send nothing to the target. *)
Theorem unserializable_transfer_authorizes_then_raises :
  forall (number amount : pyval) (w : world),
    serializable amount && serializable number = false ->
    issued (cashin' number amount) w = [areq]
    /\ issued (cashout' number amount) w = [areq]
    /\ (exists e : exn, outcome_of (cashin' number amount) w = Raised e)
    /\ (exists e : exn, outcome_of (cashout' number amount) w = Raised e).
Proof.
  intros number amount w Hser.
  assert (Hrun : forall target,
    exists e : exn,
      transfer_to' target number amount w
      = (Raised e, mkWorld (sent w ++ [areq]) (stdout w))).
  { intros target. rewrite transfer_run, Hser.
    destruct (decoded json_loads (net (sent w) areq)) as [auth|e];
      [destruct (getitem auth "access") as [tok|e]|];
      eexists; reflexivity. }
  destruct (Hrun cashin_url) as (e1 & Hin).
  destruct (Hrun cashout_url) as (e2 & Hout).
  unfold outcome_of.
  split; [apply issued_from_log;
          rewrite cashin_as_transfer, Hin; reflexivity|].
  split; [apply issued_from_log;
          rewrite cashout_as_transfer, Hout; reflexivity|].
  split.
  - exists e1. rewrite cashin_as_transfer, Hin. reflexivity.
  - exists e2. rewrite cashout_as_transfer, Hout. reflexivity.
Qed.

Lemma transfer_value_origin (target : string) (number amount : pyval)
    (w : world) (v : pyval) :
  fst (transfer_to' target number amount w) = Ok v ->
  exists (r : response) (auth tok : pyval) (r2 : response),
    net (sent w) areq = Reply r
    /\ json_loads (text r) = Some auth
    /\ getitem auth "access" = Ok tok
    /\ sent (snd (transfer_to' target number amount w))
       = sent w ++ [areq; transfer_request' target tok number amount]
    /\ net (sent w ++ [areq])
         (transfer_request' target tok number amount) = Reply r2
    /\ json_loads (text r2) = Some v.
Proof.
  rewrite transfer_run.
  destruct (decoded json_loads (net (sent w) areq)) as [auth|e] eqn:Ha;
    [|discriminate].
  destruct (getitem auth "access") as [tok|e] eqn:Hg; [|discriminate].
  destruct (serializable amount && serializable number); [|discriminate].
  cbn zeta. cbn [fst snd sent]. intros Hv.
  destruct (decoded_ok _ Ha) as (r & Hr & Hj).
  destruct (decoded_ok _ Hv) as (r2 & Hr2 & Hj2).
  exists r, auth, tok, r2. repeat split; assumption.
Qed.

(** X4.  A value returned by [cashin], [cashout] or [find_transaction] is
    always the decoded reply to the target request, never the reply to the
    authorization: a return means the authorization reply decoded to a
    value with an "access" field, both requests were handed over, and the
    target replied with a body decoding to the value returned. *)
Theorem returned_value_is_the_target_reply :
  forall (number amount ref : pyval) (w : world) (v : pyval),
    let served (target : pyval -> request) (m : M pyval) :=
      exists (r : response) (auth tok : pyval) (r2 : response),
        net (sent w) areq = Reply r
        /\ json_loads (text r) = Some auth
        /\ getitem auth "access" = Ok tok
        /\ issued m w = [areq; target tok]
        /\ net (sent w ++ [areq]) (target tok) = Reply r2
        /\ json_loads (text r2) = Some v in
    (outcome_of (cashin' number amount) w = Ok v ->
     served (fun tok => transfer_request' cashin_url tok number amount)
       (cashin' number amount))
    /\ (outcome_of (cashout' number amount) w = Ok v ->
        served (fun tok => transfer_request' cashout_url tok number amount)
          (cashout' number amount))
    /\ (outcome_of (find_transaction' ref) w = Ok v ->
        served (fun tok => find_request py_repr tok ref)
          (find_transaction' ref)).
Proof.
  intros number amount ref w v served. unfold served, outcome_of.
  split; [|split].
  - rewrite cashin_as_transfer. intros Hv.
    destruct (transfer_value_origin _ _ _ _ Hv)
      as (r & auth & tok & r2 & Hr & Hj & Hg & Hlog & Hr2 & Hj2).
    exists r, auth, tok, r2. repeat split; try assumption.
    apply issued_from_log. rewrite cashin_as_transfer. exact Hlog.
  - rewrite cashout_as_transfer. intros Hv.
    destruct (transfer_value_origin _ _ _ _ Hv)
      as (r & auth & tok & r2 & Hr & Hj & Hg & Hlog & Hr2 & Hj2).
    exists r, auth, tok, r2. repeat split; try assumption.
    apply issued_from_log. rewrite cashout_as_transfer. exact Hlog.
  - intros Hv. pose proof (find_transaction_run net json_loads dumps_text
                             py_repr ref w) as Hrun.
    rewrite Hrun in Hv.
    destruct (decoded json_loads (net (sent w) areq)) as [auth|e] eqn:Ha;
      [|discriminate].
    destruct (getitem auth "access") as [tok|e] eqn:Hg; [|discriminate].
    cbn zeta in Hv, Hrun. cbn [fst] in Hv.
    destruct (decoded_ok _ Ha) as (r & Hr & Hj).
    destruct (decoded_ok _ Hv) as (r2 & Hr2 & Hj2).
    exists r, auth, tok, r2. repeat split; try assumption.
    apply issued_from_log. rewrite Hrun. reflexivity.
Qed.

Lemma module_body_issued (w : world) :
  issued module_body' w
  = issued
      (find_transaction' (PStr "dbed4dbb-f1bd-433d-ba57-e383c5faa96b")) w.
Proof.
  unfold issued. rewrite module_body_run.
  destruct (find_transaction' _ w) as [[v|e] w1]; reflexivity.
Qed.

(** X5.  Every request any operation (or the module load) hands to the
    transport is a POST or a GET to a URL under the provider's https
    origin, announces and accepts JSON, and carries the timeout 50000. *)
Theorem every_request_is_json_to_the_provider :
  forall (number amount ref : pyval) (w : world) (q : request),
    In q (issued authorize' w)
    \/ In q (issued (cashin' number amount) w)
    \/ In q (issued (cashout' number amount) w)
    \/ In q (issued (find_transaction' ref) w)
    \/ In q (issued module_body' w) ->
    (method q = "POST" \/ method q = "GET")
    /\ String.prefix origin (url q) = true
    /\ In ("Content-Type", "application/json") (headers q)
    /\ In ("Accept", "application/json") (headers q)
    /\ timeout q = 50000.
Proof.
  intros number amount ref w q.
  assert (Hareq : forall x, x = areq ->
    (method x = "POST" \/ method x = "GET")
    /\ String.prefix origin (url x) = true
    /\ In ("Content-Type", "application/json") (headers x)
    /\ In ("Accept", "application/json") (headers x)
    /\ timeout x = 50000).
  { intros x ->. repeat split; simpl; auto. }
  assert (Htransfer : forall target,
    String.prefix origin target = true ->
    In q (issued (transfer_to' target number amount) w) ->
    (method q = "POST" \/ method q = "GET")
    /\ String.prefix origin (url q) = true
    /\ In ("Content-Type", "application/json") (headers q)
    /\ In ("Accept", "application/json") (headers q)
    /\ timeout q = 50000).
  { intros target Hpre Hin.
    destruct (transfer_issued target number amount w) as [E|[tok E]];
      rewrite E in Hin; simpl in Hin.
    - destruct Hin as [<-|[]]. apply Hareq. reflexivity.
    - destruct Hin as [<-|[<-|[]]]; [apply Hareq; reflexivity|].
      repeat split; simpl; auto. }
  assert (Hfind : forall x,
    In q (issued (find_transaction' x) w) ->
    (method q = "POST" \/ method q = "GET")
    /\ String.prefix origin (url q) = true
    /\ In ("Content-Type", "application/json") (headers q)
    /\ In ("Accept", "application/json") (headers q)
    /\ timeout q = 50000).
  { intros x Hin.
    destruct (find_issued x w) as [E|[tok E]];
      rewrite E in Hin; simpl in Hin.
    - destruct Hin as [<-|[]]. apply Hareq. reflexivity.
    - destruct Hin as [<-|[<-|[]]]; [apply Hareq; reflexivity|].
      repeat split; simpl; auto. }
  intros [H|[H|[H|[H|H]]]].
  - rewrite (issued_from_log authorize' w [areq]) in H.
    + destruct H as [<-|[]]. apply Hareq. reflexivity.
    + rewrite authorize_run. reflexivity.
  - apply (Htransfer cashin_url); [reflexivity|exact H].
  - apply (Htransfer cashout_url); [reflexivity|exact H].
  - apply (Hfind ref). exact H.
  - rewrite module_body_issued in H. apply (Hfind _ H).
Qed.

(** X6.  The operations keep no state of their own: on a network whose
    answers do not depend on what was sent before, each operation gives
    the same outcome and hands over the same requests whatever the world
    it starts in. *)
Theorem operations_are_stateless :
  (forall hist q, net hist q = net [] q) ->
  forall (number amount ref : pyval) (w : world),
    (outcome_of authorize' w = outcome_of authorize' fresh
     /\ issued authorize' w = issued authorize' fresh)
    /\ (outcome_of (cashin' number amount) w
        = outcome_of (cashin' number amount) fresh
        /\ issued (cashin' number amount) w
           = issued (cashin' number amount) fresh)
    /\ (outcome_of (cashout' number amount) w
        = outcome_of (cashout' number amount) fresh
        /\ issued (cashout' number amount) w
           = issued (cashout' number amount) fresh)
    /\ (outcome_of (find_transaction' ref) w
        = outcome_of (find_transaction' ref) fresh
        /\ issued (find_transaction' ref) w
           = issued (find_transaction' ref) fresh).
Proof.
  intros Hnet number amount ref w.
  assert (Htransfer : forall target,
    fst (transfer_to' target number amount w)
    = fst (transfer_to' target number amount fresh)
    /\ skipn (length (sent w))
         (sent (snd (transfer_to' target number amount w)))
       = skipn (length (sent fresh))
           (sent (snd (transfer_to' target number amount fresh)))).
  { intros target. rewrite !transfer_run. cbn [sent fresh].
    rewrite (Hnet (sent w)).
    destruct (decoded json_loads (net [] areq)) as [auth|e];
      [destruct (getitem auth "access") as [tok|e];
       [destruct (serializable amount && serializable number)|]|];
      cbn zeta; cbn [fst snd sent]; rewrite ?skipn_length_app;
      rewrite ?(Hnet (sent w ++ [areq])), ?(Hnet ([] ++ [areq]));
      split; reflexivity. }
  unfold outcome_of, issued. split; [|split; [|split]].
  - rewrite !authorize_run. cbn [fst snd sent fresh].
    rewrite (Hnet (sent w)), skipn_length_app. split; reflexivity.
  - rewrite !cashin_as_transfer. apply Htransfer.
  - rewrite !cashout_as_transfer. apply Htransfer.
  - rewrite !find_transaction_run. cbn [sent fresh].
    rewrite (Hnet (sent w)).
    destruct (decoded json_loads (net [] areq)) as [auth|e];
      [destruct (getitem auth "access") as [tok|e]|];
      cbn zeta; cbn [fst snd sent]; rewrite ?skipn_length_app;
      rewrite ?(Hnet (sent w ++ [areq])), ?(Hnet ([] ++ [areq]));
      split; reflexivity.
Qed.

(** X7.  No credential is kept from one operation to the next: a [cashin]
    followed by a [cashout] hands over four requests, each transfer behind
    an authorization of its own, and the second transfer bears the token
    of the second authorization. *)
Theorem each_operation_authorizes_anew :
  forall (n1 a1 n2 a2 : pyval) (w : world) (r1 r2 r3 : response)
         (auth1 tok1 v1 auth2 tok2 : pyval),
    serializable a1 && serializable n1 = true ->
    serializable a2 && serializable n2 = true ->
    net (sent w) areq = Reply r1 ->
    json_loads (text r1) = Some auth1 ->
    getitem auth1 "access" = Ok tok1 ->
    let q1 := transfer_request' cashin_url tok1 n1 a1 in
    net (sent w ++ [areq]) q1 = Reply r2 ->
    json_loads (text r2) = Some v1 ->
    net (sent w ++ [areq; q1]) areq = Reply r3 ->
    json_loads (text r3) = Some auth2 ->
    getitem auth2 "access" = Ok tok2 ->
    issued (bind (cashin' n1 a1) (fun _ => cashout' n2 a2)) w
    = [areq; q1; areq; transfer_request' cashout_url tok2 n2 a2].
Proof.
  intros n1 a1 n2 a2 w r1 r2 r3 auth1 tok1 v1 auth2 tok2
    Hs1 Hs2 Hr1 Hj1 Hg1 q1 Hr2 Hj2 Hr3 Hj3 Hg2.
  apply issued_from_log. unfold bind.
  rewrite cashin_as_transfer, transfer_run, Hr1. cbn [decoded].
  rewrite Hj1, Hg1, Hs1. cbn zeta. fold q1. rewrite Hr2. cbn [decoded].
  rewrite Hj2.
  rewrite cashout_as_transfer, transfer_run. cbn [sent stdout].
  rewrite Hr3. cbn [decoded]. rewrite Hj3, Hg2, Hs2. cbn zeta.
  cbn [snd sent]. rewrite <- app_assoc. reflexivity.
Qed.

(** X8.  Only loading the module prints: [authorize], [cashin], [cashout]
    and [find_transaction] leave standard output as it was, and the load
    adds one line, [str] of the value found, exactly when its lookup
    returns a value. *)
Theorem only_loading_prints :
  forall (number amount ref : pyval) (w : world),
    stdout (snd (authorize' w)) = stdout w
    /\ stdout (snd (cashin' number amount w)) = stdout w
    /\ stdout (snd (cashout' number amount w)) = stdout w
    /\ stdout (snd (find_transaction' ref w)) = stdout w
    /\ stdout (snd (module_body' w))
       = match outcome_of
                 (find_transaction'
                    (PStr "dbed4dbb-f1bd-433d-ba57-e383c5faa96b")) w with
         | Ok v => stdout w ++ [py_str py_repr v]
         | Raised _ => stdout w
         end.
Proof.
  intros number amount ref w.
  assert (Htransfer : forall target,
    stdout (snd (transfer_to' target number amount w)) = stdout w).
  { intros target. rewrite transfer_run.
    destruct (decoded json_loads (net (sent w) areq)) as [auth|e];
      [destruct (getitem auth "access") as [tok|e];
       [destruct (serializable amount && serializable number)|]|];
      reflexivity. }
  assert (Hfind : forall x,
    stdout (snd (find_transaction' x w)) = stdout w).
  { intros x. rewrite find_transaction_run.
    destruct (decoded json_loads (net (sent w) areq)) as [auth|e];
      [destruct (getitem auth "access") as [tok|e]|];
      reflexivity. }
  split; [rewrite authorize_run; reflexivity|].
  split; [rewrite cashin_as_transfer; apply Htransfer|].
  split; [rewrite cashout_as_transfer; apply Htransfer|].
  split; [apply Hfind|].
  rewrite module_body_run. unfold outcome_of.
  pose proof (Hfind (PStr "dbed4dbb-f1bd-433d-ba57-e383c5faa96b")) as Hout.
  destruct (find_transaction' _ w) as [[v|e] w1];
    cbn [fst snd stdout] in *; rewrite Hout; reflexivity.
Qed.

End Further.

(** ** The further properties on the sample providers *)

Lemma authorize_failure_propagates_witness :
  authorize garbled_net sample_loads sample_dumps fresh
  = (Raised JSONDecodeError, mkWorld [authorize_request sample_dumps] [])
  /\ cashin garbled_net sample_loads sample_dumps sample_repr
       (PStr "0780000000") (PInt 100) fresh
     = (Raised JSONDecodeError, mkWorld [authorize_request sample_dumps] [])
  /\ module_body garbled_net sample_loads sample_dumps sample_repr fresh
     = (Raised JSONDecodeError, mkWorld [authorize_request sample_dumps] []).
Proof.
  split; [reflexivity|].
  destruct (@authorize_failure_propagates
              garbled_net sample_loads sample_dumps sample_repr
              (PStr "0780000000") (PInt 100) PNone fresh
              (mkWorld [authorize_request sample_dumps] [])
              JSONDecodeError eq_refl)
    as (Hin & _ & _ & Hload).
  split; [exact Hin | exact Hload].
Defined.

Lemma unserializable_transfer_authorizes_then_raises_witness :
  serializable sample_set && serializable (PStr "0780000000") = false
  /\ issued
       (cashin sample_net sample_loads sample_dumps sample_repr
          (PStr "0780000000") sample_set) fresh
     = [authorize_request sample_dumps]
  /\ exists e : exn,
       outcome_of
         (cashin sample_net sample_loads sample_dumps sample_repr
            (PStr "0780000000") sample_set) fresh
       = Raised e.
Proof.
  split; [reflexivity|].
  destruct (@unserializable_transfer_authorizes_then_raises
              sample_net sample_loads sample_dumps sample_repr
              (PStr "0780000000") sample_set fresh eq_refl)
    as (Hin & _ & Hraise & _).
  split; [exact Hin | exact Hraise].
Defined.

Lemma returned_value_is_the_target_reply_witness :
  outcome_of
    (find_transaction finding_net sample_loads sample_dumps sample_repr
       (PStr "dbed4dbb-f1bd-433d-ba57-e383c5faa96b")) fresh
  = Ok sample_transaction
  /\ exists (r : response) (auth tok : pyval) (r2 : response),
       finding_net (sent fresh) (authorize_request sample_dumps) = Reply r
       /\ sample_loads (text r) = Some auth
       /\ getitem auth "access" = Ok tok
       /\ issued
            (find_transaction finding_net sample_loads sample_dumps
               sample_repr (PStr "dbed4dbb-f1bd-433d-ba57-e383c5faa96b"))
            fresh
          = [authorize_request sample_dumps;
             find_request sample_repr tok
               (PStr "dbed4dbb-f1bd-433d-ba57-e383c5faa96b")]
       /\ finding_net (sent fresh ++ [authorize_request sample_dumps])
            (find_request sample_repr tok
               (PStr "dbed4dbb-f1bd-433d-ba57-e383c5faa96b"))
          = Reply r2
       /\ sample_loads (text r2) = Some sample_transaction.
Proof.
  split; [reflexivity|].
  exact (proj2 (proj2
           (@returned_value_is_the_target_reply
              finding_net sample_loads sample_dumps sample_repr
              PNone PNone (PStr "dbed4dbb-f1bd-433d-ba57-e383c5faa96b")
              fresh sample_transaction))
           eq_refl).
Defined.

Lemma every_request_is_json_to_the_provider_witness :
  let q :=
    transfer_request sample_dumps sample_repr cashin_url (PStr "tok-a1")
      (PStr "0780000000") (PInt 100) in
  In q
    (issued
       (cashin sample_net sample_loads sample_dumps sample_repr
          (PStr "0780000000") (PInt 100)) fresh)
  /\ (method q = "POST" \/ method q = "GET")
  /\ String.prefix origin (url q) = true
  /\ In ("Content-Type", "application/json") (headers q)
  /\ In ("Accept", "application/json") (headers q)
  /\ timeout q = 50000.
Proof.
  intros q.
  assert (Hin : In q
    (issued
       (cashin sample_net sample_loads sample_dumps sample_repr
          (PStr "0780000000") (PInt 100)) fresh)).
  { right. left. reflexivity. }
  split; [exact Hin|].
  exact (@every_request_is_json_to_the_provider
           sample_net sample_loads sample_dumps sample_repr
           (PStr "0780000000") (PInt 100) PNone fresh q
           (or_intror (or_introl Hin))).
Defined.

Lemma operations_are_stateless_witness :
  let busy :=
    mkWorld [authorize_request sample_dumps; authorize_request sample_dumps]
      ["earlier output"] in
  outcome_of
    (cashin sample_net sample_loads sample_dumps sample_repr
       (PStr "0780000000") (PInt 100)) busy
  = outcome_of
      (cashin sample_net sample_loads sample_dumps sample_repr
         (PStr "0780000000") (PInt 100)) fresh
  /\ issued
       (cashin sample_net sample_loads sample_dumps sample_repr
          (PStr "0780000000") (PInt 100)) busy
     = issued
         (cashin sample_net sample_loads sample_dumps sample_repr
            (PStr "0780000000") (PInt 100)) fresh.
Proof.
  intros busy.
  exact (proj1 (proj2
           (@operations_are_stateless
              sample_net sample_loads sample_dumps sample_repr
              (fun hist q => eq_refl)
              (PStr "0780000000") (PInt 100) PNone busy))).
Defined.

Lemma each_operation_authorizes_anew_witness :
  issued
    (bind
       (cashin rotating_net rotating_loads sample_dumps sample_repr
          (PStr "0780000000") (PInt 100))
       (fun _ =>
          cashout rotating_net rotating_loads sample_dumps sample_repr
            (PStr "0780000000") (PInt 40)))
    fresh
  = [authorize_request sample_dumps;
     transfer_request sample_dumps sample_repr cashin_url (PStr "tok-0")
       (PStr "0780000000") (PInt 100);
     authorize_request sample_dumps;
     transfer_request sample_dumps sample_repr cashout_url (PStr "tok-1")
       (PStr "0780000000") (PInt 40)].
Proof.
  exact (@each_operation_authorizes_anew
           rotating_net rotating_loads sample_dumps sample_repr
           (PStr "0780000000") (PInt 100) (PStr "0780000000") (PInt 40)
           fresh
           (mkResponse 200 (sample_dumps (nth_credential 0)))
           (mkResponse 200 (sample_dumps sample_transaction))
           (mkResponse 200 (sample_dumps (nth_credential 1)))
           (nth_credential 0) (PStr "tok-0") sample_transaction
           (nth_credential 1) (PStr "tok-1")
           eq_refl eq_refl eq_refl eq_refl eq_refl
           eq_refl eq_refl eq_refl eq_refl eq_refl).
Defined.
